(** * protoid.py: protocol identifiers from version strings

    A shallow embedding of [protoid.py] together with the properties of
    its identifier function [protoid] and of its command-line block.

    The script calls [print] as a function with two arguments and pads
    its first label so that both values line up behind the single
    separating space [print] inserts; it is therefore read with the
    Python 3 semantics, where [str] and [bytes] are distinct types, the
    elements of [sys.argv] are [str], and [hashlib.sha512] accepts only
    bytes-like objects. *)

From Stdlib Require Import ZArith NArith String Ascii List Bool Lia.
From Stdlib Require Import Strings.Byte.
Import ListNotations.

(** ** SHA-512 (FIPS 180-4), the function behind [hashlib.sha512] *)

Module SHA512.
Local Open Scope Z_scope.

(** 64-bit words are integers in [0, 2^64); every operation that can leave
    that range is wrapped explicitly. *)
Definition modulus : Z := 2 ^ 64.

Definition wrap (x : Z) : Z := x mod modulus.

Definition add64 (x y : Z) : Z := wrap (x + y).

Definition SHR (n x : Z) : Z := Z.shiftr x n.

Definition ROTR (n x : Z) : Z :=
  Z.lor (Z.shiftr x n) (wrap (Z.shiftl x (64 - n))).

Definition NOT (x : Z) : Z := Z.lxor x (modulus - 1).

Definition Ch (x y z : Z) : Z := Z.lxor (Z.land x y) (Z.land (NOT x) z).

Definition Maj (x y z : Z) : Z :=
  Z.lxor (Z.lxor (Z.land x y) (Z.land x z)) (Z.land y z).

Definition Sigma0 (x : Z) : Z :=
  Z.lxor (Z.lxor (ROTR 28 x) (ROTR 34 x)) (ROTR 39 x).

Definition Sigma1 (x : Z) : Z :=
  Z.lxor (Z.lxor (ROTR 14 x) (ROTR 18 x)) (ROTR 41 x).

Definition sigma0 (x : Z) : Z :=
  Z.lxor (Z.lxor (ROTR 1 x) (ROTR 8 x)) (SHR 7 x).

Definition sigma1 (x : Z) : Z :=
  Z.lxor (Z.lxor (ROTR 19 x) (ROTR 61 x)) (SHR 6 x).

(** The eighty round constants. *)
Definition K : list Z :=
  [ 0x428a2f98d728ae22; 0x7137449123ef65cd; 0xb5c0fbcfec4d3b2f; 0xe9b5dba58189dbbc;
    0x3956c25bf348b538; 0x59f111f1b605d019; 0x923f82a4af194f9b; 0xab1c5ed5da6d8118;
    0xd807aa98a3030242; 0x12835b0145706fbe; 0x243185be4ee4b28c; 0x550c7dc3d5ffb4e2;
    0x72be5d74f27b896f; 0x80deb1fe3b1696b1; 0x9bdc06a725c71235; 0xc19bf174cf692694;
    0xe49b69c19ef14ad2; 0xefbe4786384f25e3; 0x0fc19dc68b8cd5b5; 0x240ca1cc77ac9c65;
    0x2de92c6f592b0275; 0x4a7484aa6ea6e483; 0x5cb0a9dcbd41fbd4; 0x76f988da831153b5;
    0x983e5152ee66dfab; 0xa831c66d2db43210; 0xb00327c898fb213f; 0xbf597fc7beef0ee4;
    0xc6e00bf33da88fc2; 0xd5a79147930aa725; 0x06ca6351e003826f; 0x142929670a0e6e70;
    0x27b70a8546d22ffc; 0x2e1b21385c26c926; 0x4d2c6dfc5ac42aed; 0x53380d139d95b3df;
    0x650a73548baf63de; 0x766a0abb3c77b2a8; 0x81c2c92e47edaee6; 0x92722c851482353b;
    0xa2bfe8a14cf10364; 0xa81a664bbc423001; 0xc24b8b70d0f89791; 0xc76c51a30654be30;
    0xd192e819d6ef5218; 0xd69906245565a910; 0xf40e35855771202a; 0x106aa07032bbd1b8;
    0x19a4c116b8d2d0c8; 0x1e376c085141ab53; 0x2748774cdf8eeb99; 0x34b0bcb5e19b48a8;
    0x391c0cb3c5c95a63; 0x4ed8aa4ae3418acb; 0x5b9cca4f7763e373; 0x682e6ff3d6b2b8a3;
    0x748f82ee5defb2fc; 0x78a5636f43172f60; 0x84c87814a1f0ab72; 0x8cc702081a6439ec;
    0x90befffa23631e28; 0xa4506cebde82bde9; 0xbef9a3f7b2c67915; 0xc67178f2e372532b;
    0xca273eceea26619c; 0xd186b8c721c0c207; 0xeada7dd6cde0eb1e; 0xf57d4f7fee6ed178;
    0x06f067aa72176fba; 0x0a637dc5a2c898a6; 0x113f9804bef90dae; 0x1b710b35131c471b;
    0x28db77f523047d84; 0x32caab7b40c72493; 0x3c9ebe0a15c9bebc; 0x431d67c49c100d4c;
    0x4cc5d4becb3e42b6; 0x597f299cfc657e2a; 0x5fcb6fab3ad6faec; 0x6c44198c4a475817 ].

(** The chaining value: eight 64-bit words. *)
Record state : Type := mkState
  { ha : Z; hb : Z; hc : Z; hd : Z; he : Z; hf : Z; hg : Z; hh : Z }.

Definition H0 : state :=
  mkState 0x6a09e667f3bcc908 0xbb67ae8584caa73b 0x3c6ef372fe94f82b
          0xa54ff53a5f1d36f1 0x510e527fade682d1 0x9b05688c2b3e6c1f
          0x1f83d9abfb41bd6b 0x5be0cd19137e2179.

Definition state_words (st : state) : list Z :=
  [ha st; hb st; hc st; hd st; he st; hf st; hg st; hh st].

(** [be_bytes n x]: the [n] low bytes of [x], most significant first. *)
Fixpoint be_bytes (n : nat) (x : Z) : list Z :=
  match n with
  | O => []
  | S n' => Z.land (Z.shiftr x (8 * Z.of_nat n')) 255 :: be_bytes n' x
  end.

Definition be_word (bs : list Z) : Z :=
  fold_left (fun acc b => acc * 256 + b) bs 0.

(** Message padding: a [0x80] byte, zero bytes up to 112 modulo 128, then
    the bit length of the message on 16 bytes. *)
Definition pad (msg : list Z) : list Z :=
  let l := Z.of_nat (length msg) in
  msg ++ [0x80] ++ repeat 0 (Z.to_nat ((111 - l) mod 128)) ++ be_bytes 16 (8 * l).

Fixpoint chunks (n size : nat) (l : list Z) : list (list Z) :=
  match n with
  | O => []
  | S n' => firstn size l :: chunks n' size (skipn size l)
  end.

Definition blocks (m : list Z) : list (list Z) :=
  chunks (length m / 128) 128 m.

Definition words (block : list Z) : list Z :=
  map be_word (chunks 16 8 block).

(** The message schedule is kept as a window of the sixteen latest words:
    its head is [W t], and [W (t+16)] is appended as the head leaves. *)
Definition next_word (win : list Z) : Z :=
  add64 (add64 (add64 (sigma1 (nth 14 win 0)) (nth 9 win 0))
               (sigma0 (nth 1 win 0)))
        (nth 0 win 0).

Definition slide (win : list Z) : list Z := tl win ++ [next_word win].

Definition round (st : state) (k wt : Z) : state :=
  let T1 := add64 (add64 (add64 (add64 (hh st) (Sigma1 (he st)))
                                (Ch (he st) (hf st) (hg st))) k) wt in
  let T2 := add64 (Sigma0 (ha st)) (Maj (ha st) (hb st) (hc st)) in
  mkState (add64 T1 T2) (ha st) (hb st) (hc st)
          (add64 (hd st) T1) (he st) (hf st) (hg st).

Fixpoint rounds (ks win : list Z) (st : state) : state :=
  match ks with
  | [] => st
  | k :: ks' => rounds ks' (slide win) (round st k (nth 0 win 0))
  end.

Definition compress (st : state) (block : list Z) : state :=
  let st' := rounds K (words block) st in
  mkState (add64 (ha st) (ha st')) (add64 (hb st) (hb st'))
          (add64 (hc st) (hc st')) (add64 (hd st) (hd st'))
          (add64 (he st) (he st')) (add64 (hf st) (hf st'))
          (add64 (hg st) (hg st')) (add64 (hh st) (hh st')).

Definition byte_val (b : byte) : Z := Z.of_N (Byte.to_N b).

Definition hash (msg : list byte) : state :=
  fold_left compress (blocks (pad (map byte_val msg))) H0.

(** The 64-byte digest: the eight words of the final chaining value. *)
Definition digest (msg : list byte) : list Z :=
  flat_map (be_bytes 8) (state_words (hash msg)).

End SHA512.

(** ** The fragment of Python the script runs in *)

Module Py.

(** A [str] is a sequence of Unicode code points, a [bytes] object a
    sequence of octets; neither converts to the other implicitly. *)
Definition str : Type := list N.

Definition bytes : Type := list byte.

Inductive value : Type :=
| Str (s : str)
| Bytes (b : bytes).

(** String literals of the script, as code points. *)
Definition lit (s : string) : str :=
  map N_of_ascii (list_ascii_of_string s).

Definition encode_ascii (s : string) : bytes :=
  map byte_of_ascii (list_ascii_of_string s).

Inductive exn : Type :=
| TypeError
| IndexError
| UnicodeEncodeError.

Inductive result (A : Type) : Type :=
| Ok (a : A)
| Raise (e : exn).

Arguments Ok {A} a.
Arguments Raise {A} e.

(** What a run can observe and change: the argument vector, the text
    written to standard output so far, and which code points beyond ASCII
    the encoding of standard output has (a run does not change it). *)
Record world : Type := mkWorld
  { argv : list str;
    stdout : str;
    encodes : N -> bool }.

(** Computations read and update the world and end with a value or an
    uncaught exception; what was written before an exception stays
    written. *)
Definition M (A : Type) : Type := world -> result A * world.

Definition ret {A : Type} (a : A) : M A := fun w => (Ok a, w).

Definition raise {A : Type} (e : exn) : M A := fun w => (Raise e, w).

Definition bind {A B : Type} (c : M A) (k : A -> M B) : M B :=
  fun w =>
    match c w with
    | (Ok a, w') => k a w'
    | (Raise e, w') => (Raise e, w')
    end.

Declare Scope py_scope.
Delimit Scope py_scope with py.

Notation "x <- c ;; k" := (bind c (fun x => k))
  (at level 61, c at next level, right associativity) : py_scope.
Notation "c ;; k" := (bind c (fun _ => k))
  (at level 61, right associativity) : py_scope.

Local Open Scope py_scope.

(** [sys.argv] *)
Definition sys_argv : M (list str) := fun w => (Ok (argv w), w).

(** [l[i]] for a non-negative index. *)
Definition getitem {A : Type} (l : list A) (i : nat) : M A :=
  match nth_error l i with
  | Some x => ret x
  | None => raise IndexError
  end.

(** [s[lo:hi]] for non-negative bounds: slicing clamps, it never raises. *)
Definition slice {A : Type} (s : list A) (lo hi : nat) : list A :=
  firstn (hi - lo) (skipn lo s).

Definition newline : str := [10%N].

(** A text can be written when the encoding of the stream has all its
    code points; the ASCII characters are in every such encoding. *)
Definition writable (enc : N -> bool) (s : str) : bool :=
  forallb (fun c => (c <? 128)%N || enc c) s.

(** [sys.stdout.write(s)]: the text is appended as a whole, or, when it
    cannot be encoded, [UnicodeEncodeError] is raised and none of it is
    written. *)
Definition write (s : str) : M unit :=
  fun w =>
    if writable (encodes w) s
    then (Ok tt, mkWorld (argv w) (stdout w ++ s) (encodes w))
    else (Raise UnicodeEncodeError, w).

(** [print(a, b, ...)] writes its arguments one by one, a space before
    each but the first, and then a newline; an argument that cannot be
    written ends the call, with what came before it already written. *)
Fixpoint write_items (first : bool) (args : list str) : M unit :=
  match args with
  | [] => ret tt
  | a :: rest =>
      (if first then ret tt else write (lit " ")) ;;
      write a ;;
      write_items false rest
  end.

Definition print (args : list str) : M unit :=
  write_items true args ;;
  write newline.

(** *** [hashlib] *)

(** A SHA-512 hash object holds the octets it was fed. *)
Record sha512_object : Type := mkSha512 { message : bytes }.

(** [hashlib.sha512(data)] takes a bytes-like object; handed a [str] it
    raises [TypeError]. *)
Definition sha512 (data : value) : M sha512_object :=
  match data with
  | Bytes b => ret (mkSha512 b)
  | Str _ => raise TypeError
  end.

Definition hexdigit (n : Z) : N :=
  Z.to_N (if (n <? 10)%Z then 48 + n else 87 + n).

Definition hex_byte (b : Z) : str :=
  [hexdigit (Z.land (Z.shiftr b 4) 15); hexdigit (Z.land b 15)].

Definition hexlify (bs : list Z) : str := flat_map hex_byte bs.

(** [h.hexdigest()] *)
Definition hexdigest (h : sha512_object) : str :=
  hexlify (SHA512.digest (message h)).

End Py.

(** ** The script *)

Import Py.
Local Open Scope py_scope.

(** [[
def protoid(version_string):
  from hashlib import sha512
  h = sha512(version_string)
  ver = '0x' + h.hexdigest()[0:8]
  return ver
]] *)
Definition protoid (version_string : value) : M str :=
  h <- sha512 version_string ;;
  let ver := lit "0x" ++ slice (hexdigest h) 0 8 in
  ret ver.

(** [[
if __name__ == '__main__':
  import sys
  version_string = 'Testing v0.1'
  if len(sys.argv) > 1:
    version_string = sys.argv[1]
  print('Version string:  ', version_string)
  print('Proto identifier:', protoid(version_string))
]] *)
Definition main_with (protoid : value -> M str) : M unit :=
  let version_string := lit "Testing v0.1" in
  args <- sys_argv ;;
  version_string <-
    (if (1 <? length args)%nat then getitem args 1 else ret version_string) ;;
  print [lit "Version string:  "; version_string] ;;
  ident <- protoid (Str version_string) ;;
  print [lit "Proto identifier:"; ident].

(** The block looks the name [protoid] up when it calls it; in the script
    it is bound to the function above. *)
Definition main : M unit := main_with protoid.

(** A run of the block from a command line, on a standard output with the
    encoding [enc]: the outcome and the text left on standard output. *)
Definition run_with (callee : value -> M str)
    (enc : N -> bool) (args : list str) : result unit * str :=
  let (r, w) := main_with callee (mkWorld args [] enc) in (r, stdout w).

Definition run_cli (enc : N -> bool) (args : list str) : result unit * str :=
  run_with protoid enc args.

(** ** Vocabulary of the properties *)

(** The value [version_string] holds once the argument vector has been
    looked at: the first argument after the program name when there is
    one, the built-in default otherwise. *)
Definition version_string_of (args : list str) : str :=
  match args with
  | _ :: a :: _ => a
  | _ => lit "Testing v0.1"
  end.

(** The two lines of output, as the text they put on standard output. *)
Definition version_line (version_string : str) : str :=
  lit "Version string:  " ++ lit " " ++ version_string ++ newline.

Definition identifier_line (ident : str) : str :=
  lit "Proto identifier:" ++ lit " " ++ ident ++ newline.

(** Lowercase hexadecimal digits, and the shape [0x[0-9a-f]{8}]. *)
Definition is_lower_hex (c : N) : bool :=
  ((48 <=? c)%N && (c <=? 57)%N) || ((97 <=? c)%N && (c <=? 102)%N).

Definition matches_identifier (s : str) : bool :=
  match s with
  | c0 :: c1 :: digits =>
      (c0 =? 48)%N && (c1 =? 120)%N
      && (length digits =? 8)%nat && forallb is_lower_hex digits
  | _ => false
  end.

Definition is_ascii (s : str) : bool := forallb (fun c => (c <? 128)%N) s.

(** Number of complete lines in a text. *)
Definition count_lines (out : str) : nat :=
  length (filter (fun c => (c =? 10)%N) out).

(** All-or-nothing output, in the words of the specification: a run in
    which the computation fails has written both lines or nothing. *)
Definition all_or_nothing (enc : N -> bool) (args : list str) : Prop :=
  forall e : exn,
    fst (run_cli enc args) = Raise e ->
    snd (run_cli enc args) = []
    \/ exists ident : str,
        snd (run_cli enc args) =
        version_line (version_string_of args) ++ identifier_line ident.

(** UTF-8, the usual encoding of standard output and the one the
    specification recommends for version strings.  Surrogate code points
    have no UTF-8 form. *)
Definition octet (n : N) : byte :=
  match Byte.of_N n with
  | Some b => b
  | None => x00
  end.

Definition utf8_char (c : N) : option bytes :=
  if (c <? 0x80)%N then Some [octet c]
  else if (c <? 0x800)%N then
    Some [octet (0xC0 + c / 64); octet (0x80 + c mod 64)]
  else if (c <? 0x10000)%N then
    if ((0xD800 <=? c) && (c <=? 0xDFFF))%N then None
    else Some [octet (0xE0 + c / 4096); octet (0x80 + (c / 64) mod 64);
               octet (0x80 + c mod 64)]
  else if (c <? 0x110000)%N then
    Some [octet (0xF0 + c / 262144); octet (0x80 + (c / 4096) mod 64);
          octet (0x80 + (c / 64) mod 64); octet (0x80 + c mod 64)]
  else None.

Fixpoint utf8_encode (s : str) : option bytes :=
  match s with
  | [] => Some []
  | c :: rest =>
      match utf8_char c, utf8_encode rest with
      | Some bs, Some tail => Some (bs ++ tail)
      | _, _ => None
      end
  end.

Definition utf8_stdout (c : N) : bool :=
  match utf8_char c with
  | Some _ => true
  | None => false
  end.


(** ** SHA-512: test vectors and the size of a digest *)

Example sha512_empty :
  hexlify (SHA512.digest []) =
  lit ("cf83e1357eefb8bdf1542850d66d8007d620e4050b5715dc83f4a921d36ce9ce"
    ++ "47d0d13c5d85f2b0ff8318d2877eec2f63b931bd47417a81a538327af927da3e").
Proof. vm_compute. reflexivity. Qed.

Example sha512_abc :
  hexlify (SHA512.digest (encode_ascii "abc")) =
  lit ("ddaf35a193617abacc417349ae20413112e6fa4e89a97ea20a9eeee64b55d39a"
    ++ "2192992a274fc1a836ba3c23a3feebbd454d4423643ce80e2a9ac94fa54ca49f").
Proof. vm_compute. reflexivity. Qed.

(** A message of 112 octets no longer leaves room for the length in its
    last block: padding adds a second block. *)
Example sha512_two_blocks :
  hexlify (SHA512.digest (repeat "a"%byte 112)) =
  lit ("c01d080efd492776a1c43bd23dd99d0a2e626d481e16782e75d54c2503b5dc32"
    ++ "bd05f0f1ba33e568b88fd2d970929b719ecbb152f58f130a407c8830604b70ca").
Proof. vm_compute. reflexivity. Qed.

Lemma be_bytes_length (n : nat) (x : Z) : length (SHA512.be_bytes n x) = n.
Proof.
  induction n as [|n IH]; simpl; [reflexivity | now rewrite IH].
Qed.

Lemma digest_length (msg : bytes) : length (SHA512.digest msg) = 64%nat.
Proof.
  unfold SHA512.digest, SHA512.state_words.
  generalize (SHA512.hash msg); intros st.
  cbn [flat_map].
  repeat rewrite length_app.
  repeat rewrite be_bytes_length.
  reflexivity.
Qed.

(** ** Hexadecimal rendering *)

Lemma nibble_range (x : Z) : (0 <= Z.land x 15 < 16)%Z.
Proof.
  change 15%Z with (Z.ones 4).
  rewrite Z.land_ones by lia.
  apply Z.mod_pos_bound; reflexivity.
Qed.

Lemma hexdigit_lower_hex (n : Z) :
  (0 <= n < 16)%Z -> is_lower_hex (hexdigit n) = true.
Proof.
  intros [Hlo Hhi].
  destruct n as [|p|p]; [reflexivity | | lia].
  do 4 (destruct p as [p|p|]; try lia; try reflexivity).
Qed.

Lemma hex_byte_lower_hex (b : Z) : forallb is_lower_hex (hex_byte b) = true.
Proof.
  unfold hex_byte; cbn [forallb].
  rewrite !hexdigit_lower_hex by apply nibble_range.
  reflexivity.
Qed.

Lemma hexlify_lower_hex (bs : list Z) : forallb is_lower_hex (hexlify bs) = true.
Proof.
  unfold hexlify.
  induction bs as [|b bs IH]; [reflexivity |].
  cbn [flat_map]. rewrite forallb_app, hex_byte_lower_hex, IH. reflexivity.
Qed.

Lemma hexlify_length (bs : list Z) : length (hexlify bs) = (2 * length bs)%nat.
Proof.
  unfold hexlify.
  induction bs as [|b bs IH]; [reflexivity |].
  cbn [flat_map]. rewrite length_app, IH. cbn [hex_byte length]. lia.
Qed.

Lemma hexdigest_length (h : sha512_object) : length (hexdigest h) = 128%nat.
Proof.
  unfold hexdigest. rewrite hexlify_length, digest_length. reflexivity.
Qed.

Lemma forallb_firstn {A : Type} (p : A -> bool) (n : nat) (l : list A) :
  forallb p l = true -> forallb p (firstn n l) = true.
Proof.
  revert l; induction n as [|n IH]; intros [|x l]; cbn; try reflexivity.
  intros H; apply andb_true_iff in H as [Hx Hl].
  now rewrite Hx, IH.
Qed.

Lemma slice_prefix_length (h : sha512_object) :
  length (slice (hexdigest h) 0 8) = 8%nat.
Proof.
  unfold slice. cbn [skipn Nat.sub].
  rewrite length_firstn, hexdigest_length. reflexivity.
Qed.

Lemma slice_prefix_lower_hex (h : sha512_object) :
  forallb is_lower_hex (slice (hexdigest h) 0 8) = true.
Proof.
  unfold slice. cbn [skipn Nat.sub].
  apply forallb_firstn, hexlify_lower_hex.
Qed.

(** ** What [protoid] and [main] evaluate to *)

Lemma protoid_bytes (b : bytes) (w : world) :
  protoid (Bytes b) w =
  (Ok (lit "0x" ++ firstn 8 (hexlify (SHA512.digest b))), w).
Proof. reflexivity. Qed.

Lemma protoid_str (s : str) (w : world) :
  protoid (Str s) w = (Raise TypeError, w).
Proof. reflexivity. Qed.

Lemma protoid_world (v : value) (w w0 : world) :
  protoid v w = (fst (protoid v w0), w).
Proof. destruct v; reflexivity. Qed.

(** *** Writing to standard output *)

Lemma writable_app (enc : N -> bool) (s t : str) :
  writable enc (s ++ t) = writable enc s && writable enc t.
Proof. apply forallb_app. Qed.

Lemma write_eval (s : str) (args : list str) (out : str) (enc : N -> bool) :
  write s (mkWorld args out enc) =
  if writable enc s
  then (Ok tt, mkWorld args (out ++ s) enc)
  else (Raise UnicodeEncodeError, mkWorld args out enc).
Proof. reflexivity. Qed.

(** A call of [print] with a label of the script and one value: the whole
    line when the value can be written, the label and the separator
    otherwise. *)
Lemma print_labelled (label v : str) (args : list str) (out : str)
    (enc : N -> bool) :
  writable enc label = true ->
  print [label; v] (mkWorld args out enc) =
  if writable enc v
  then (Ok tt, mkWorld args (out ++ label ++ lit " " ++ v ++ newline) enc)
  else (Raise UnicodeEncodeError, mkWorld args (out ++ label ++ lit " ") enc).
Proof.
  intros Hlabel.
  unfold print. cbn [write_items]. unfold bind at 1 2 3 4 5.
  cbn [ret]. rewrite write_eval, Hlabel.
  rewrite write_eval. change (writable enc (lit " ")) with true. cbv iota.
  rewrite write_eval.
  destruct (writable enc v).
  - cbn [write_items ret]. rewrite write_eval.
    change (writable enc newline) with true. cbv iota.
    now rewrite <- !app_assoc.
  - now rewrite <- !app_assoc.
Qed.

(** The block writes the version line, then calls [protoid]; only when the
    call returns does it go on to the identifier line.  When the version
    string cannot be written, the call is not reached. *)
Lemma main_with_run (callee : value -> M str) (args : list str) (out : str)
    (enc : N -> bool) :
  main_with callee (mkWorld args out enc) =
  let version_string := version_string_of args in
  if writable enc version_string
  then
    match callee (Str version_string)
            (mkWorld args (out ++ version_line version_string) enc) with
    | (Ok ident, w2) => print [lit "Proto identifier:"; ident] w2
    | (Raise e, w2) => (Raise e, w2)
    end
  else
    (Raise UnicodeEncodeError,
     mkWorld args (out ++ lit "Version string:  " ++ lit " ") enc).
Proof.
  assert (Hsel :
    (if (1 <? length args)%nat then getitem args 1
     else ret (lit "Testing v0.1")) = ret (version_string_of args))
    by (destruct args as [|prog [|a extras]]; reflexivity).
  unfold main_with. cbv zeta.
  unfold bind at 1, sys_argv. cbn [argv].
  rewrite Hsel. unfold bind at 1, ret at 1.
  unfold bind at 1. rewrite print_labelled by reflexivity.
  destruct (writable enc (version_string_of args)); [| reflexivity].
  unfold bind, version_line.
  destruct (callee _ _) as [[ident | e] w2]; reflexivity.
Qed.

Lemma main_run (args : list str) (out : str) (enc : N -> bool) :
  main (mkWorld args out enc) =
  if writable enc (version_string_of args)
  then (Raise TypeError,
        mkWorld args (out ++ version_line (version_string_of args)) enc)
  else (Raise UnicodeEncodeError,
        mkWorld args (out ++ lit "Version string:  " ++ lit " ") enc).
Proof.
  unfold main. rewrite main_with_run. cbv zeta.
  destruct (writable enc (version_string_of args)); reflexivity.
Qed.

Lemma run_cli_eval (enc : N -> bool) (args : list str) :
  run_cli enc args =
  if writable enc (version_string_of args)
  then (Raise TypeError, version_line (version_string_of args))
  else (Raise UnicodeEncodeError, lit "Version string:  " ++ lit " ").
Proof.
  unfold run_cli, run_with. fold main. rewrite main_run.
  destruct (writable enc (version_string_of args)); reflexivity.
Qed.

(** A run that gets as far as calling [protoid] ends with its [TypeError],
    the version line written. *)
Lemma run_cli_raises (enc : N -> bool) (args : list str) :
  writable enc (version_string_of args) = true ->
  run_cli enc args = (Raise TypeError, version_line (version_string_of args)).
Proof.
  intros H. now rewrite run_cli_eval, H.
Qed.

(** A command-line octet that is not UTF-8 reaches the script as a lone
    surrogate; a UTF-8 standard output cannot take it, and the run ends
    in the first [print], before [protoid] is called. *)
Example run_cli_unencodable :
  run_cli utf8_stdout [lit "protoid.py"; [0xDCFF%N]] =
  (Raise UnicodeEncodeError, lit "Version string:   ").
Proof. vm_compute. reflexivity. Qed.

Example utf8_encode_samples :
  utf8_encode [0x41; 0xE9; 0x20AC; 0x1F600]%N =
    Some ["A"; "195"; "169"; "226"; "130"; "172";
          "240"; "159"; "152"; "128"]%byte
  /\ utf8_encode [0xD800%N] = None.
Proof. split; vm_compute; reflexivity. Qed.

(** ** Properties of [protoid] *)

(** C1: the identifier is ['0x'] followed by the first 8 characters of the
    hexadecimal SHA-512 digest of the octets of the input.  This holds
    for every [bytes] input; the version string the script itself passes,
    the [str] ['Testing v0.1'], makes [protoid] raise [TypeError] instead
    of returning an identifier. *)
Theorem protoid_value :
  (forall (b : bytes) (w : world),
      protoid (Bytes b) w =
      (Ok (lit "0x" ++ firstn 8 (hexlify (SHA512.digest b))), w))
  /\ (forall w : world,
      protoid (Str (lit "Testing v0.1")) w = (Raise TypeError, w)).
Proof.
  split; intros; [apply protoid_bytes | apply protoid_str].
Qed.

(** C2: whenever [protoid] returns, the string it returns has the shape
    [0x[0-9a-f]{8}]: 10 characters, the prefix ['0x'], then 8 lowercase
    hexadecimal digits. *)
Theorem protoid_format (v : value) (w w' : world) (ident : str) :
  protoid v w = (Ok ident, w') ->
  length ident = 10%nat
  /\ firstn 2 ident = lit "0x"
  /\ forallb is_lower_hex (skipn 2 ident) = true
  /\ matches_identifier ident = true.
Proof.
  destruct v as [s | b]; [rewrite protoid_str; discriminate |].
  intros H. cbv [protoid bind sha512 ret] in H.
  injection H as Hident _. subst ident.
  pose proof (slice_prefix_length (mkSha512 b)) as Hlen.
  pose proof (slice_prefix_lower_hex (mkSha512 b)) as Hhex.
  set (digits := slice (hexdigest (mkSha512 b)) 0 8) in *.
  change (lit "0x" ++ digits) with (48%N :: 120%N :: digits).
  cbn [length firstn skipn matches_identifier].
  rewrite Hlen, Hhex. repeat split; reflexivity.
Qed.

Lemma protoid_format_witness :
  length (lit "0xcf83e135") = 10%nat
  /\ firstn 2 (lit "0xcf83e135") = lit "0x"
  /\ forallb is_lower_hex (skipn 2 (lit "0xcf83e135")) = true
  /\ matches_identifier (lit "0xcf83e135") = true.
Proof.
  apply (protoid_format (Bytes []) (mkWorld [] [] (fun _ => false))
           (mkWorld [] [] (fun _ => false))).
  vm_compute. reflexivity.
Defined.

(** C3: [protoid] is deterministic: on the same input it ends the same way
    whatever the argument vector and standard output hold, and it leaves
    both as it found them. *)
Theorem protoid_deterministic (v : value) (w1 w2 : world) :
  fst (protoid v w1) = fst (protoid v w2)
  /\ snd (protoid v w1) = w1.
Proof.
  rewrite (protoid_world v w1 w2). split; reflexivity.
Qed.

(** C4: [protoid] fails on every [str], also on one made of ASCII
    characters only, which every usual text encoding can encode; the
    exception is [TypeError], not an encoding error. *)
Theorem protoid_fails_on_encodable_str :
  (forall (s : str) (w : world), fst (protoid (Str s) w) = Raise TypeError)
  /\ is_ascii (lit "Testing v0.1") = true
  /\ TypeError <> UnicodeEncodeError.
Proof.
  repeat split; [discriminate].
Qed.

(** C5: the empty [bytes] object has the identifier ['0xcf83e135'], while
    the empty [str] makes [protoid] raise [TypeError]. *)
Theorem protoid_empty (w : world) :
  protoid (Bytes []) w = (Ok (lit "0xcf83e135"), w)
  /\ protoid (Str []) w = (Raise TypeError, w).
Proof.
  split; [| apply protoid_str].
  rewrite protoid_bytes. do 2 f_equal. vm_compute. reflexivity.
Qed.

(** C10: [protoid] hands its argument to [sha512] as it is, without any
    encoding step of its own: every [bytes] input yields an identifier, cut
    from a hexadecimal digest of 128 characters whose slice [[0:8]] has
    8 characters, and a [str] is never turned into octets, the call ends
    with the [TypeError] of [sha512]. *)
Theorem protoid_no_encoding :
  (forall (v : value) (w : world),
      protoid v w =
      match sha512 v w with
      | (Ok h, w') => (Ok (lit "0x" ++ slice (hexdigest h) 0 8), w')
      | (Raise e, w') => (Raise e, w')
      end)
  /\ (forall (b : bytes) (w : world),
      protoid (Bytes b) w = (Ok (lit "0x" ++ slice (hexdigest (mkSha512 b)) 0 8), w)
      /\ length (hexdigest (mkSha512 b)) = 128%nat
      /\ length (slice (hexdigest (mkSha512 b)) 0 8) = 8%nat)
  /\ (forall (s : str) (w : world),
      sha512 (Str s) w = (Raise TypeError, w)
      /\ protoid (Str s) w = (Raise TypeError, w)).
Proof.
  split; [| split].
  - intros v w. destruct v; reflexivity.
  - intros b w. split; [reflexivity | split].
    + apply hexdigest_length.
    + apply slice_prefix_length.
  - intros s w. split; reflexivity.
Qed.

(** ** Properties of the command-line block *)

(** Arguments after the first have no influence on a run. *)
Lemma run_cli_extra_arguments (enc : N -> bool) (prog a : str)
    (extras : list str) :
  run_cli enc (prog :: a :: extras) = run_cli enc [prog; a].
Proof.
  rewrite !run_cli_eval. reflexivity.
Qed.

Lemma identifier_line_length (ident : str) :
  (0 < length (identifier_line ident))%nat.
Proof.
  unfold identifier_line. rewrite length_app. cbn. lia.
Qed.




(** C6: run without arguments, the script takes the default version string
    ['Testing v0.1'] and writes its line; the call of [protoid] then raises
    [TypeError], and no identifier is written. *)
Theorem cli_default_run (enc : N -> bool) (prog : str) :
  version_string_of [prog] = lit "Testing v0.1"
  /\ run_cli enc [prog] =
     (Raise TypeError, lit "Version string:   Testing v0.1" ++ newline).
Proof.
  split; [reflexivity |].
  rewrite run_cli_raises by reflexivity. reflexivity.
Qed.

(** C7: run with the arguments ['foo'] and ['bar'], the script takes
    ['foo'] as version string and ends with [TypeError] after the version
    line; for any arguments, those after the first change nothing of a
    run. *)
Theorem cli_extra_arguments :
  (forall enc : N -> bool,
      run_cli enc [lit "protoid.py"; lit "foo"; lit "bar"] =
      (Raise TypeError, lit "Version string:   foo" ++ newline))
  /\ (forall (enc : N -> bool) (prog a : str) (extras : list str),
      version_string_of (prog :: a :: extras) = a
      /\ run_cli enc (prog :: a :: extras) = run_cli enc [prog; a]).
Proof.
  split.
  - intros enc. rewrite run_cli_raises by reflexivity. reflexivity.
  - intros enc prog a extras. split; [reflexivity |].
    apply run_cli_extra_arguments.
Qed.



(** C9, as stated, fails: run without arguments, the script has written
    exactly one line when [protoid] raises. *)
Lemma cli_partial_output :
  ~ all_or_nothing utf8_stdout [lit "protoid.py"]
  /\ count_lines (snd (run_cli utf8_stdout [lit "protoid.py"])) = 1%nat.
Proof.
  split; [| vm_compute; reflexivity].
  intros H. destruct (H TypeError) as [Hnone | [ident Hboth]].
  - rewrite run_cli_raises by reflexivity. reflexivity.
  - rewrite run_cli_raises in Hnone by reflexivity. discriminate Hnone.
  - rewrite run_cli_raises in Hboth by reflexivity. cbn [snd] in Hboth.
    apply (f_equal (@length N)) in Hboth. rewrite length_app in Hboth.
    pose proof (identifier_line_length ident). lia.
Qed.

(** C9, amended: when the call of [protoid] is reached, that is once the
    version line has been written, and fails, the identifier line is not
    written: the run ends with that exception and exactly the version
    line as output. *)
Theorem cli_output_before_failure
    (enc : N -> bool) (args : list str) (e : exn) (w w' : world) :
  writable enc (version_string_of args) = true ->
  protoid (Str (version_string_of args)) w = (Raise e, w') ->
  run_cli enc args = (Raise e, version_line (version_string_of args)).
Proof.
  intros Hw H. unfold run_cli, run_with. rewrite main_with_run. cbv zeta.
  rewrite Hw, (protoid_world _ _ w), H. reflexivity.
Qed.

Lemma cli_output_before_failure_witness :
  run_cli utf8_stdout [lit "protoid.py"] =
  (Raise TypeError, version_line (version_string_of [lit "protoid.py"])).
Proof.
  apply (cli_output_before_failure utf8_stdout [lit "protoid.py"] TypeError
           (mkWorld [] [] utf8_stdout) (mkWorld [] [] utf8_stdout)).
  - reflexivity.
  - reflexivity.
Defined.

(** ** Further properties of [protoid] *)

Lemma firstn_hexlify (n : nat) (bs : list Z) :
  firstn (2 * n) (hexlify bs) = hexlify (firstn n bs).
Proof.
  revert bs; induction n as [|n IH]; intros bs; [reflexivity |].
  destruct bs as [|b bs]; [reflexivity |].
  replace (2 * S n)%nat with (S (S (2 * n))) by lia.
  unfold hexlify in *. cbn [flat_map hex_byte app firstn].
  rewrite IH. reflexivity.
Qed.

Lemma be_bytes_octets (n : nat) (x : Z) :
  Forall (fun b => (0 <= b < 256)%Z) (SHA512.be_bytes n x).
Proof.
  induction n as [|n IH]; cbn [SHA512.be_bytes]; constructor; [| exact IH].
  change 255%Z with (Z.ones 8).
  rewrite Z.land_ones by lia.
  apply Z.mod_pos_bound; reflexivity.
Qed.

Lemma digest_octets (msg : bytes) :
  Forall (fun b => (0 <= b < 256)%Z) (SHA512.digest msg).
Proof.
  unfold SHA512.digest.
  apply Forall_flat_map, Forall_forall.
  intros x _. apply be_bytes_octets.
Qed.

Lemma hexdigit_inj (n m : Z) :
  (0 <= n < 16)%Z -> (0 <= m < 16)%Z -> hexdigit n = hexdigit m -> n = m.
Proof.
  unfold hexdigit. intros Hn Hm H.
  destruct (Z.ltb_spec n 10), (Z.ltb_spec m 10); lia.
Qed.

Lemma hex_byte_inj (a b : Z) :
  (0 <= a < 256)%Z -> (0 <= b < 256)%Z -> hex_byte a = hex_byte b -> a = b.
Proof.
  unfold hex_byte. intros Ha Hb H. injection H as Hhi Hlo.
  apply hexdigit_inj in Hhi; [| apply nibble_range ..].
  apply hexdigit_inj in Hlo; [| apply nibble_range ..].
  change 15%Z with (Z.ones 4) in Hhi, Hlo.
  rewrite !Z.land_ones, !Z.shiftr_div_pow2 in Hhi by lia.
  rewrite !Z.land_ones in Hlo by lia.
  change (2 ^ 4)%Z with 16%Z in Hhi, Hlo.
  Z.div_mod_to_equations. lia.
Qed.

Lemma hexlify_inj (bs1 bs2 : list Z) :
  Forall (fun b => (0 <= b < 256)%Z) bs1 ->
  Forall (fun b => (0 <= b < 256)%Z) bs2 ->
  hexlify bs1 = hexlify bs2 -> bs1 = bs2.
Proof.
  unfold hexlify. intros H1; revert bs2.
  induction H1 as [|a bs1 Ha _ IH]; intros bs2 H2 H;
    destruct H2 as [|b bs2 Hb H2]; try discriminate H; [reflexivity |].
  cbn [flat_map hex_byte app] in H.
  injection H as Hhi Hlo Hrest.
  f_equal.
  - apply hex_byte_inj; [assumption .. |]. unfold hex_byte. now rewrite Hhi, Hlo.
  - now apply IH.
Qed.

Lemma Forall_prefix {A : Type} (P : A -> Prop) (n : nat) (l : list A) :
  Forall P l -> Forall P (firstn n l).
Proof.
  intros H; revert n.
  induction H as [|x l Hx _ IH]; intros [|n]; cbn [firstn]; auto.
Qed.

Lemma Ok_inj {A : Type} (x y : A) : Ok x = Ok y -> x = y.
Proof. intros H. now injection H. Qed.

Lemma protoid_bytes_prefix (b : bytes) (w : world) :
  protoid (Bytes b) w =
  (Ok (lit "0x" ++ hexlify (firstn 4 (SHA512.digest b))), w).
Proof.
  rewrite protoid_bytes. change 8%nat with (2 * 4)%nat.
  now rewrite firstn_hexlify.
Qed.

(** X1: the identifier of a [bytes] input carries 32 bits of its digest: its
    eight digits render the first four octets of the SHA-512 digest and
    nothing else of it. *)
Theorem protoid_digest_prefix (b : bytes) (w : world) :
  protoid (Bytes b) w =
  (Ok (lit "0x" ++ hexlify (firstn 4 (SHA512.digest b))), w)
  /\ length (firstn 4 (SHA512.digest b)) = 4%nat
  /\ Forall (fun o => (0 <= o < 256)%Z) (firstn 4 (SHA512.digest b)).
Proof.
  split; [apply protoid_bytes_prefix | split].
  - rewrite length_firstn, digest_length. reflexivity.
  - apply Forall_prefix, digest_octets.
Qed.

(** X2: two [bytes] inputs get the same identifier exactly when their
    SHA-512 digests agree on the first four octets. *)
Theorem protoid_collision_iff (b1 b2 : bytes) (w : world) :
  protoid (Bytes b1) w = protoid (Bytes b2) w
  <-> firstn 4 (SHA512.digest b1) = firstn 4 (SHA512.digest b2).
Proof.
  rewrite !protoid_bytes_prefix. split.
  - intros H. apply (f_equal fst) in H. cbn [fst] in H.
    apply Ok_inj, app_inv_head in H.
    apply hexlify_inj in H; [exact H | apply Forall_prefix, digest_octets ..].
  - intros H. now rewrite H.
Qed.

Lemma protoid_bytes_eval (b : bytes) (w : world) (ident : str) :
  lit "0x" ++ firstn 8 (hexlify (SHA512.digest b)) = ident ->
  protoid (Bytes b) w = (Ok ident, w).
Proof. intros <-. apply protoid_bytes. Qed.

(** X3: [protoid] is not injective: the distinct inputs [b'v72967'] and
    [b'v94292'] have the same identifier, ['0x78acc9f7']. *)
Theorem protoid_not_injective :
  exists b1 b2 : bytes,
    b1 <> b2
    /\ forall w : world,
        protoid (Bytes b1) w = (Ok (lit "0x78acc9f7"), w)
        /\ protoid (Bytes b2) w = (Ok (lit "0x78acc9f7"), w).
Proof.
  exists (encode_ascii "v72967"), (encode_ascii "v94292").
  split; [vm_compute; discriminate |].
  intros w.
  split; apply protoid_bytes_eval; vm_compute; reflexivity.
Qed.

(** ** Further properties of the command-line block *)

Lemma version_string_of_nth (args : list str) :
  version_string_of args =
  match nth_error args 1 with
  | Some a => a
  | None => lit "Testing v0.1"
  end.
Proof.
  destruct args as [|prog [|a extras]]; reflexivity.
Qed.

(** X4: [main] leaves [sys.argv] and the encoding of standard output as
    they are and only appends to standard output: whatever was written
    before is still there, followed by the version line or, when the
    version string cannot be written, by the label and the separator. *)
Theorem main_appends (w : world) :
  argv (snd (main w)) = argv w
  /\ encodes (snd (main w)) = encodes w
  /\ stdout (snd (main w)) =
     stdout w ++
     (if writable (encodes w) (version_string_of (argv w))
      then version_line (version_string_of (argv w))
      else lit "Version string:  " ++ lit " ").
Proof.
  destruct w as [args out enc]. rewrite main_run. cbn [argv stdout encodes].
  destruct (writable enc (version_string_of args)); repeat split.
Qed.

(** X5: a run depends on the argument vector only through its element of
    index 1: the program name and the arguments after the first play no
    part. *)
Theorem cli_depends_on_first_argument
    (enc : N -> bool) (args args' : list str) :
  nth_error args 1 = nth_error args' 1 ->
  run_cli enc args = run_cli enc args'.
Proof.
  intros H. rewrite !run_cli_eval, !version_string_of_nth, H. reflexivity.
Qed.

Lemma cli_depends_on_first_argument_witness :
  run_cli utf8_stdout [lit "protoid.py"; lit "foo"] =
  run_cli utf8_stdout [lit "./protoid"; lit "foo"; lit "bar"].
Proof.
  apply (cli_depends_on_first_argument utf8_stdout
           [lit "protoid.py"; lit "foo"]
           [lit "./protoid"; lit "foo"; lit "bar"]).
  reflexivity.
Defined.

(** X6: the output tells a version string that could be written: a run
    whose version string standard output can encode, and any other run
    that ends alike with the same text, worked on the same version
    string. *)
Theorem cli_output_identifies_version
    (enc enc' : N -> bool) (args args' : list str) :
  writable enc (version_string_of args) = true ->
  run_cli enc args = run_cli enc' args' ->
  version_string_of args = version_string_of args'.
Proof.
  intros Hw H. rewrite !run_cli_eval, Hw in H.
  destruct (writable enc' (version_string_of args')).
  - apply (f_equal snd) in H. cbn [snd] in H.
    unfold version_line in H.
    do 2 apply app_inv_head in H.
    now apply app_inv_tail in H.
  - apply (f_equal fst) in H. discriminate H.
Qed.

Lemma cli_output_identifies_version_witness :
  version_string_of [lit "protoid.py"; lit "foo"] =
  version_string_of [lit "./protoid"; lit "foo"; lit "bar"].
Proof.
  apply (cli_output_identifies_version utf8_stdout utf8_stdout
           [lit "protoid.py"; lit "foo"]
           [lit "./protoid"; lit "foo"; lit "bar"]).
  - reflexivity.
  - vm_compute. reflexivity.
Defined.


(** X8: with fewer than two elements in [sys.argv], an empty vector
    included, the run works on the default ['Testing v0.1'] and never
    reads an element that is not there. *)
Theorem cli_missing_argument (enc : N -> bool) (args : list str) :
  (length args <= 1)%nat ->
  run_cli enc args =
  (Raise TypeError, lit "Version string:   Testing v0.1" ++ newline).
Proof.
  intros H.
  destruct args as [|prog [|a extras]];
    [rewrite run_cli_raises by reflexivity; reflexivity ..|].
  cbn [length] in H. lia.
Qed.

Lemma cli_missing_argument_witness :
  run_cli utf8_stdout [] =
  (Raise TypeError, lit "Version string:   Testing v0.1" ++ newline).
Proof.
  apply (cli_missing_argument utf8_stdout []).
  cbn [length]. lia.
Defined.
